(** * toolsws.wstypes: the uwsgi web service adapters

    A shallow embedding of [toolsws/wstypes/python.py] and
    [toolsws/wstypes/uwsgi.py].  Both classes offer [check], which looks
    for a required path under the tool's home directory, and [run], which
    assembles a uwsgi command line and hands it to [subprocess.check_call].

    The Python methods read the filesystem, start a child process and may
    raise; they are embedded in a small state-and-exception monad over an
    explicit [World].  Unlike a state transformer over a sum type, a
    raised exception keeps the effects performed before it, as in Python. *)

From Stdlib Require Import ZArith String Ascii List Bool Lia.
From Stdlib Require Import DecimalString DecimalPos DecimalZ.
Import ListNotations.

Local Open Scope list_scope.
Local Open Scope string_scope.

(** ** The Python runtime, as far as the two modules use it *)

(** The file objects [sys.stdin], [sys.stdout] and [sys.stderr] of the
    running interpreter. *)
Inductive sys_file : Type :=
| sys_stdin
| sys_stdout
| sys_stderr.

(** What [subprocess] accepts for its [stdin=], [stdout=] and [stderr=]
    keywords: nothing ([None], the default), one of the special values, or
    an open file object. *)
Inductive stdio : Type :=
| Default
| PIPE
| DEVNULL
| STDOUT
| File (f : sys_file).

(** The arguments of one [subprocess.check_call]. *)
Record Popen_args : Type := mkPopen {
  args : list string;
  stdin : stdio;
  stdout : stdio;
  stderr : stdio
}.

(** Exceptions that the modelled code can raise. *)
Inductive exn : Type :=
| InvalidWebServiceException (msg : string)
| CalledProcessError (returncode : Z) (cmd : list string)
| OSError.

Inductive result (A : Type) : Type :=
| Ok (a : A)
| Raised (e : exn).
Arguments Ok {A} a.
Arguments Raised {A} e.

(** The world a method runs in: which paths exist ([os.path.exists]),
    what the operating system answers when a child is started ([None]:
    the program could not be executed; [Some rc]: it ran and exited with
    status [rc]), and the children requested so far, oldest first. *)
Record World : Type := mkWorld {
  path_exists : string -> bool;
  child_status : Popen_args -> option Z;
  popen_log : list Popen_args
}.

Definition M (A : Type) : Type := World -> result A * World.

Definition ret {A} (a : A) : M A := fun w => (Ok a, w).

Definition raise {A} (e : exn) : M A := fun w => (Raised e, w).

Definition bind {A B} (m : M A) (k : A -> M B) : M B :=
  fun w =>
    match m w with
    | (Ok a, w') => k a w'
    | (Raised e, w') => (Raised e, w')
    end.

Declare Scope py_scope.
Delimit Scope py_scope with py.
Notation "x <- m ;; k" := (bind m (fun x => k))
  (at level 61, m at next level, right associativity) : py_scope.
Notation "m ;; k" := (bind m (fun _ => k))
  (at level 61, right associativity) : py_scope.
Local Open Scope py_scope.

(** [os.path.exists(p)] *)
Definition os_path_exists (p : string) : M bool :=
  fun w => (Ok (path_exists w p), w).

(** [str(n)] for a Python [int]: decimal digits, with a leading minus sign
    for negative numbers. *)
Definition str (n : Z) : string := NilZero.string_of_int (Z.to_int n).

(** [subprocess.check_call(command, stdin=.., stdout=.., stderr=..)]:
    start the child, wait for it, return 0 when it exits with status 0 and
    raise [CalledProcessError] otherwise. *)
Definition check_call (c : Popen_args) : M Z :=
  fun w =>
    let w' := mkWorld (path_exists w) (child_status w) (popen_log w ++ [c]) in
    match child_status w c with
    | None => (Raised OSError, w')
    | Some rc =>
        if (rc =? 0)%Z then (Ok 0%Z, w')
        else (Raised (CalledProcessError rc (args c)), w')
    end.

(** [needle in hay] on strings. *)
Fixpoint contains (needle hay : string) : bool :=
  prefix needle hay ||
  match hay with
  | EmptyString => false
  | String _ rest => contains needle rest
  end.

(** Does [b] directly follow [a] somewhere in the argument list? *)
Fixpoint has_pair (a b : string) (l : list string) : bool :=
  match l with
  | x :: ((y :: _) as rest) => (String.eqb a x && String.eqb b y) || has_pair a b rest
  | _ => false
  end.

(** ** The tool *)

Record Tool : Type := mkTool {
  name : string;
  home : string
}.

(** Modelled from the spec: [Tool.get_homedir_subpath] belongs to
    [toolsws/tool.py], which is not among the sources; the specification
    writes its result as [<home>/<subpath>]. *)
Definition get_homedir_subpath (t : Tool) (path : string) : string :=
  home t ++ "/" ++ path.

(** An instance of a [WebService] subclass; the methods below only read
    its [tool] attribute. *)
Record WebService : Type := mkWebService {
  tool : Tool
}.

(** ** [class PythonWebService(WebService)] *)

Module PythonWebService.

Definition NAME : string := "uwsgi-python".
Definition QUEUE : string := "webgrid-generic".

Definition check {W : Type} (self : WebService) (wstype : W) : M unit :=
  let src_path := get_homedir_subpath (tool self) "www/python/src" in
  e <- os_path_exists src_path ;;
  if negb e then
  raise (InvalidWebServiceException
           ("Could not find ~/www/python/src. Are you sure you have a " ++
            "proper uwsgi application in ~/www/python/src?"))
  else ret tt.

Section Run.

(** [WebService.run] of [toolsws/wstypes/ws.py], reached through
  [super(PythonWebService, self).run(port)].  It may read and change
  the world and may raise; it is taken to leave the attributes of
  [self] as they are. *)
Variable super_run : WebService -> Z -> M unit.

Definition run (self : WebService) (port : Z) : M unit :=
  super_run self port ;;
  let command := [
    "/usr/bin/uwsgi";
    "--plugin";
    "python,python3";
    "--http-socket";
    ":" ++ str port;
    "--chdir";
    get_homedir_subpath (tool self) "www/python/src";
    "--logto";
    get_homedir_subpath (tool self) "uwsgi.log";
    "--callable";
    "app";
    "--manage-script-name";
    "--workers";
    "4";
    "--mount";
    "/" ++ name (tool self) ++ "=" ++
      get_homedir_subpath (tool self) "www/python/src/app.py";
    "--die-on-term";
    "--strict";
    "--master"
  ] in
  venv <- os_path_exists (get_homedir_subpath (tool self) "www/python/venv") ;;
  let command :=
    if venv then
      (command ++ ["--venv"; get_homedir_subpath (tool self) "www/python/venv"])%list
    else command in
  ini <- os_path_exists (get_homedir_subpath (tool self) "www/python/uwsgi.ini") ;;
  let command :=
    if ini then
      (command ++ ["--ini"; get_homedir_subpath (tool self) "www/python/uwsgi.ini"])%list
    else command in
  check_call (mkPopen command (File sys_stdin) (File sys_stdout) (File sys_stderr)) ;;
  ret tt.

End Run.

End PythonWebService.

(** ** [class UwsgiWebService(WebService)] *)

Module UwsgiWebService.

Definition NAME : string := "uwsgi-plain".
Definition QUEUE : string := "webgrid-generic".

Definition check {W : Type} (self : WebService) (wstype : W) : M unit :=
  let src_path := get_homedir_subpath (tool self) "uwsgi.ini" in
  e <- os_path_exists src_path ;;
  if negb e then
  raise (InvalidWebServiceException
           ("Could not find ~/uwsgi.ini. Are you sure you have a " ++
            "proper uwsgi config setup in ~/uwsgi.ini?"))
  else ret tt.

Section Run.

(** [WebService.run] of [toolsws/wstypes/ws.py], reached through
  [super(UwsgiWebService, self).run(port)]; as above. *)
Variable super_run : WebService -> Z -> M unit.

Definition run (self : WebService) (port : Z) : M unit :=
  super_run self port ;;
  let command := [
    "/usr/bin/uwsgi";
    "--http-socket";
    ":" ++ str port;
    "--logto";
    get_homedir_subpath (tool self) "uwsgi.log";
    "--ini";
    get_homedir_subpath (tool self) "uwsgi.ini";
    "--workers";
    "4";
    "--die-on-term";
    "--strict";
    "--master"
  ] in
  check_call (mkPopen command (File sys_stdin) (File sys_stdout) (File sys_stderr)) ;;
  ret tt.

End Run.

End UwsgiWebService.

(** ** Concrete data for evaluation *)

(** Modelled from the spec: [WebService.run] belongs to
    [toolsws/wstypes/ws.py], which is not among the sources; the
    specification attributes no behaviour to it (it lists the check, the
    command builder and the exec, nothing else), so the instance used for
    evaluation returns at once. *)
Definition base_run_returns : WebService -> Z -> M unit :=
  fun _ _ => ret tt.

Definition admin_tool : Tool := mkTool "admin" "/data/project/admin".
Definition admin_ws : WebService := mkWebService admin_tool.

(** A world in which exactly the listed paths exist and uwsgi exits with
    status 0. *)
Definition world_with (paths : list string) : World :=
  mkWorld (fun p => existsb (String.eqb p) paths) (fun _ => Some 0%Z) [].

(** ** The parts of the command line

    [PythonWebService.run] starts from nineteen fixed arguments and then
    appends up to two optional pairs. *)

Definition fixed_flags (self : WebService) (port : Z) : list string := [
  "/usr/bin/uwsgi"; "--plugin"; "python,python3";
  "--http-socket"; ":" ++ str port;
  "--chdir"; get_homedir_subpath (tool self) "www/python/src";
  "--logto"; get_homedir_subpath (tool self) "uwsgi.log";
  "--callable"; "app";
  "--manage-script-name";
  "--workers"; "4";
  "--mount";
  "/" ++ name (tool self) ++ "=" ++
    get_homedir_subpath (tool self) "www/python/src/app.py";
  "--die-on-term"; "--strict"; "--master"
].

Definition venv_path (self : WebService) : string :=
  get_homedir_subpath (tool self) "www/python/venv".

Definition ini_path (self : WebService) : string :=
  get_homedir_subpath (tool self) "www/python/uwsgi.ini".

Definition venv_flags (self : WebService) (w : World) : list string :=
  if path_exists w (venv_path self) then ["--venv"; venv_path self] else [].

Definition ini_flags (self : WebService) (w : World) : list string :=
  if path_exists w (ini_path self) then ["--ini"; ini_path self] else [].

(** The child that a [run] asks for: the given command line with the
    interpreter's own standard streams. *)
Definition with_own_stdio (command : list string) : Popen_args :=
  mkPopen command (File sys_stdin) (File sys_stdout) (File sys_stderr).

(** ** Observations on a run *)

(** Started in [w], the method [m] asks for exactly one child, [c], on
    top of the children already requested in [w1] (the world that the
    base-class [run] leaves behind). *)
Definition launches (m : M unit) (w w1 : World) (c : Popen_args) : Prop :=
  popen_log (snd (m w)) = (popen_log w1 ++ [c])%list.

(** Started in [w], the method [m] raises [InvalidWebServiceException]
    and no child has been requested by then. *)
Definition raises_before_launch (m : M unit) (w : World) : Prop :=
  (exists msg, fst (m w) = Raised (InvalidWebServiceException msg)) /\
  popen_log (snd (m w)) = popen_log w.

(** The child's three standard streams are the interpreter's own. *)
Definition own_stdio (c : Popen_args) : bool :=
  match stdin c, stdout c, stderr c with
  | File sys_stdin, File sys_stdout, File sys_stderr => true
  | _, _, _ => false
  end.


(** What [subprocess.check_call] makes of the child's fate: [None] is
    returned for exit status 0, [CalledProcessError] carries any other
    status together with the command, and a child that could not be
    started surfaces as [OSError]. *)
Definition outcome_of_child (status : option Z) (command : list string)
  : result unit :=
  match status with
  | None => Raised OSError
  | Some rc =>
      if (rc =? 0)%Z then Ok tt else Raised (CalledProcessError rc command)
  end.

(** A world in which every path exists and uwsgi exits with status [rc]. *)
Definition world_exiting (rc : Z) : World :=
  mkWorld (fun _ => true) (fun _ => Some rc) [].

(** [s.endswith(suffix)] on strings. *)
Fixpoint ends_with (suffix s : string) : bool :=
  String.eqb suffix s ||
  match s with
  | EmptyString => false
  | String _ rest => ends_with suffix rest
  end.

(** The options that only [PythonWebService.run] knows. *)
Definition python_only_flags : list string :=
  [ "--plugin"; "--chdir"; "--callable"; "--manage-script-name";
    "--mount"; "--venv" ].

(** Worlds used for evaluation. *)
Definition bare_world : World := world_with [].

Definition full_world : World :=
  world_with [ "/data/project/admin/www/python/src";
               "/data/project/admin/www/python/venv";
               "/data/project/admin/www/python/uwsgi.ini";
               "/data/project/admin/uwsgi.ini" ].

(** From here on [++] is list concatenation; string concatenation is
    written [(_ ++ _)%string]. *)
Local Open Scope list_scope.

(** ** Monad and runtime lemmas *)

Lemma bind_raised {A B} (m : M A) (k : A -> M B) w e w' :
  m w = (Raised e, w') -> bind m k w = (Raised e, w').
Proof. intros H. unfold bind. rewrite H. reflexivity. Qed.

Lemma bind_ok {A B} (m : M A) (k : A -> M B) w a w' :
  m w = (Ok a, w') -> bind m k w = k a w'.
Proof. intros H. unfold bind. rewrite H. reflexivity. Qed.

Lemma bind_os_path_exists {B} p (k : bool -> M B) w :
  bind (os_path_exists p) k w = k (path_exists w p) w.
Proof. reflexivity. Qed.

Lemma check_call_log c w :
  popen_log (snd (check_call c w)) = popen_log w ++ [c].
Proof.
  unfold check_call.
  destruct (child_status w c) as [rc|]; [destruct (rc =? 0)%Z|]; reflexivity.
Qed.

Lemma check_call_then_log c w :
  popen_log (snd ((check_call c ;; ret tt) w)) = popen_log w ++ [c].
Proof.
  unfold bind. pose proof (check_call_log c w) as H.
  destruct (check_call c w) as [[z|e] w']; exact H.
Qed.

(** ** String lemmas *)

Lemma length_append (s1 s2 : string) :
  String.length (s1 ++ s2)%string = String.length s1 + String.length s2.
Proof. induction s1 as [|c s1 IH]; simpl; [reflexivity | now rewrite IH]. Qed.

Lemma subpath_length t path :
  String.length (get_homedir_subpath t path) =
  String.length (home t) + S (String.length path).
Proof. unfold get_homedir_subpath. now rewrite length_append. Qed.

(** A flag no longer than the sub-path can never be the joined path. *)
Lemma flag_not_subpath t path flag :
  String.length flag <= String.length path ->
  flag <> get_homedir_subpath t path.
Proof.
  intros Hlen Heq. apply (f_equal String.length) in Heq.
  rewrite subpath_length in Heq. lia.
Qed.

(** ** Adjacent pairs in an argument list *)

Lemma has_pair_cons a b x l :
  has_pair a b (x :: l) =
  match l with
  | y :: _ => (String.eqb a x && String.eqb b y) || has_pair a b l
  | [] => false
  end.
Proof. destruct l; reflexivity. Qed.

Lemma has_pair_here a b post : has_pair a b (a :: b :: post) = true.
Proof. simpl. now rewrite !String.eqb_refl. Qed.

Lemma has_pair_skip a b x l :
  has_pair a b l = true -> has_pair a b (x :: l) = true.
Proof.
  intros H. rewrite has_pair_cons. destruct l as [|y l]; [discriminate H|].
  rewrite H. apply orb_true_r.
Qed.

Lemma has_pair_intro a b pre post :
  has_pair a b (pre ++ a :: b :: post) = true.
Proof.
  induction pre as [|x pre IH]; simpl app.
  - apply has_pair_here.
  - now apply has_pair_skip.
Qed.

Lemma has_pair_spec a b l :
  has_pair a b l = true <-> exists pre post, l = pre ++ a :: b :: post.
Proof.
  split.
  - induction l as [|x l IH]; [discriminate|].
    rewrite has_pair_cons. destruct l as [|y l]; [discriminate|].
    intros H. apply orb_true_iff in H. destruct H as [H|H].
    + apply andb_true_iff in H. destruct H as [Ha Hb].
      apply String.eqb_eq in Ha, Hb. subst. now exists [], l.
    + destruct (IH H) as (pre & post & E). exists (x :: pre), post.
      now rewrite E.
  - intros (pre & post & ->). apply has_pair_intro.
Qed.

Lemma has_pair_app_l a b l r :
  has_pair a b l = true -> has_pair a b (l ++ r) = true.
Proof.
  intros H. apply has_pair_spec in H. destruct H as (pre & post & ->).
  rewrite <- app_assoc. simpl. apply has_pair_intro.
Qed.

Lemma has_pair_absent a b l : ~ In a l -> has_pair a b l = false.
Proof.
  intros Hn. destruct (has_pair a b l) eqn:E; [|reflexivity].
  apply has_pair_spec in E. destruct E as (pre & post & ->).
  exfalso. apply Hn. apply in_or_app. right. now left.
Qed.

(** ** What [run] does, for any base-class [run] *)

Section RunShape.

Variable base : WebService -> Z -> M unit.
Variables (self : WebService) (port : Z) (w w1 : World).



Lemma python_run_launches :
  base self port w = (Ok tt, w1) ->
  popen_log (snd (PythonWebService.run base self port w)) =
  popen_log w1 ++
    [with_own_stdio
       (fixed_flags self port ++ venv_flags self w1 ++ ini_flags self w1)].
Proof.
  intros H. unfold PythonWebService.run.
  rewrite (bind_ok _ _ _ _ _ H). cbv zeta.
  rewrite !bind_os_path_exists, check_call_then_log.
  unfold venv_flags, ini_flags, with_own_stdio.
  fold (venv_path self) (ini_path self).
  destruct (path_exists w1 (venv_path self)),
           (path_exists w1 (ini_path self)); reflexivity.
Qed.

Lemma uwsgi_run_launches :
  base self port w = (Ok tt, w1) ->
  popen_log (snd (UwsgiWebService.run base self port w)) =
  popen_log w1 ++
    [with_own_stdio
       [ "/usr/bin/uwsgi"; "--http-socket"; (":" ++ str port)%string;
         "--logto"; get_homedir_subpath (tool self) "uwsgi.log";
         "--ini"; get_homedir_subpath (tool self) "uwsgi.ini";
         "--workers"; "4"; "--die-on-term"; "--strict"; "--master" ]].
Proof.
  intros H. unfold UwsgiWebService.run.
  rewrite (bind_ok _ _ _ _ _ H). cbv zeta.
  now rewrite check_call_then_log.
Qed.

End RunShape.

(** ** Where the optional flags can and cannot occur *)

(** Refute an equation between a short flag and one of the other
    arguments: a different literal, a string with another first
    character, or a path under the home directory. *)
Ltac refute_flag H :=
  first
    [ discriminate H
    | cbn [append] in H; discriminate H
    | apply flag_not_subpath in H; [exact H | cbn [String.length]; lia]
    | symmetry in H; apply flag_not_subpath in H;
      [exact H | cbn [String.length]; lia] ].

Ltac refute_membership H :=
  cbn [In] in H;
  repeat (destruct H as [H|H]; [solve [refute_flag H]|]);
  try exact H.

Lemma venv_flag_not_fixed self port : ~ In "--venv" (fixed_flags self port).
Proof. unfold fixed_flags. intros H. refute_membership H. Qed.

Lemma ini_flag_not_fixed self port : ~ In "--ini" (fixed_flags self port).
Proof. unfold fixed_flags. intros H. refute_membership H. Qed.

Lemma venv_flag_not_in_ini_flags self w : ~ In "--venv" (ini_flags self w).
Proof.
  unfold ini_flags, ini_path. intros H.
  destruct (path_exists w _); refute_membership H.
Qed.

Lemma ini_flag_not_in_venv_flags self w : ~ In "--ini" (venv_flags self w).
Proof.
  unfold venv_flags, venv_path. intros H.
  destruct (path_exists w _); refute_membership H.
Qed.

Lemma python_command_venv_pair self port w :
  has_pair "--venv" (venv_path self)
    (fixed_flags self port ++ venv_flags self w ++ ini_flags self w) =
  path_exists w (venv_path self).
Proof.
  unfold venv_flags at 1. destruct (path_exists w (venv_path self)).
  - apply has_pair_intro.
  - apply has_pair_absent. intros H.
    apply in_app_or in H. destruct H as [H|H].
    + exact (venv_flag_not_fixed _ _ H).
    + exact (venv_flag_not_in_ini_flags _ _ H).
Qed.

Lemma python_command_ini_pair self port w :
  has_pair "--ini" (ini_path self)
    (fixed_flags self port ++ venv_flags self w ++ ini_flags self w) =
  path_exists w (ini_path self).
Proof.
  unfold ini_flags at 1. destruct (path_exists w (ini_path self)).
  - rewrite app_assoc. apply has_pair_intro.
  - rewrite app_nil_r. apply has_pair_absent. intros H.
    apply in_app_or in H. destruct H as [H|H].
    + exact (ini_flag_not_fixed _ _ H).
    + exact (ini_flag_not_in_venv_flags _ _ H).
Qed.

(** ** The [check] methods *)

Lemma python_check_eq {W} self (wstype : W) w :
  PythonWebService.check self wstype w =
  (if path_exists w (get_homedir_subpath (tool self) "www/python/src")
   then Ok tt
   else Raised (InvalidWebServiceException
                  "Could not find ~/www/python/src. Are you sure you have a proper uwsgi application in ~/www/python/src?"),
   w).
Proof.
  unfold PythonWebService.check. cbv zeta. rewrite bind_os_path_exists.
  destruct (path_exists w _); reflexivity.
Qed.

Lemma uwsgi_check_eq {W} self (wstype : W) w :
  UwsgiWebService.check self wstype w =
  (if path_exists w (get_homedir_subpath (tool self) "uwsgi.ini")
   then Ok tt
   else Raised (InvalidWebServiceException
                  "Could not find ~/uwsgi.ini. Are you sure you have a proper uwsgi config setup in ~/uwsgi.ini?"),
   w).
Proof.
  unfold UwsgiWebService.check. cbv zeta. rewrite bind_os_path_exists.
  destruct (path_exists w _); reflexivity.
Qed.

(** C3. [PythonWebService.check] raises [InvalidWebServiceException]
    exactly when [<home>/www/python/src] does not exist, returns [None]
    exactly when it exists, and in either case leaves the world as it
    found it. *)
Theorem python_check_raises_iff_src_missing
    {W} (self : WebService) (wstype : W) (w : World) :
  let src_path := get_homedir_subpath (tool self) "www/python/src" in
  ((exists msg, fst (PythonWebService.check self wstype w) =
                Raised (InvalidWebServiceException msg))
   <-> path_exists w src_path = false) /\
  ((exists e, fst (PythonWebService.check self wstype w) = Raised e)
   <-> path_exists w src_path = false) /\
  (fst (PythonWebService.check self wstype w) = Ok tt
   <-> path_exists w src_path = true) /\
  snd (PythonWebService.check self wstype w) = w.
Proof.
  cbv zeta. rewrite python_check_eq.
  destruct (path_exists w _); cbn [fst snd]; repeat split;
    try discriminate; try reflexivity; eauto.
  all: intros [x Hx]; discriminate Hx.
Qed.

(** C4. [UwsgiWebService.check] raises [InvalidWebServiceException]
    exactly when [<home>/uwsgi.ini] does not exist, and returns [None]
    exactly when it exists, leaving the world as it found it. *)
Theorem uwsgi_check_raises_iff_ini_missing
    {W} (self : WebService) (wstype : W) (w : World) :
  let src_path := get_homedir_subpath (tool self) "uwsgi.ini" in
  ((exists msg, fst (UwsgiWebService.check self wstype w) =
                Raised (InvalidWebServiceException msg))
   <-> path_exists w src_path = false) /\
  ((exists e, fst (UwsgiWebService.check self wstype w) = Raised e)
   <-> path_exists w src_path = false) /\
  (fst (UwsgiWebService.check self wstype w) = Ok tt
   <-> path_exists w src_path = true) /\
  snd (UwsgiWebService.check self wstype w) = w.
Proof.
  cbv zeta. rewrite uwsgi_check_eq.
  destruct (path_exists w _); cbn [fst snd]; repeat split;
    try discriminate; try reflexivity; eauto.
  all: intros [x Hx]; discriminate Hx.
Qed.

(** C7. Whenever a [check] raises, the exception is an
    [InvalidWebServiceException] whose message names the missing path:
    ["~/www/python/src"] for [PythonWebService], ["~/uwsgi.ini"] for
    [UwsgiWebService]. *)
Theorem check_error_names_missing_path
    {W} (self : WebService) (wstype : W) (w : World) (e : exn) :
  (fst (PythonWebService.check self wstype w) = Raised e ->
   exists msg, e = InvalidWebServiceException msg /\
               contains "~/www/python/src" msg = true) /\
  (fst (UwsgiWebService.check self wstype w) = Raised e ->
   exists msg, e = InvalidWebServiceException msg /\
               contains "~/uwsgi.ini" msg = true).
Proof.
  rewrite python_check_eq, uwsgi_check_eq. split.
  - destruct (path_exists w _); cbn [fst]; intros H; [discriminate H|].
    injection H as <-. eexists. split; [reflexivity|]. vm_compute. reflexivity.
  - destruct (path_exists w _); cbn [fst]; intros H; [discriminate H|].
    injection H as <-. eexists. split; [reflexivity|]. vm_compute. reflexivity.
Qed.

Lemma check_error_names_missing_path_witness :
  (fst (PythonWebService.check admin_ws "uwsgi-python" bare_world) =
     Raised (InvalidWebServiceException
               "Could not find ~/www/python/src. Are you sure you have a proper uwsgi application in ~/www/python/src?") /\
   fst (UwsgiWebService.check admin_ws "uwsgi-plain" bare_world) =
     Raised (InvalidWebServiceException
               "Could not find ~/uwsgi.ini. Are you sure you have a proper uwsgi config setup in ~/uwsgi.ini?")) /\
  (exists msg,
      InvalidWebServiceException
        "Could not find ~/www/python/src. Are you sure you have a proper uwsgi application in ~/www/python/src?" =
      InvalidWebServiceException msg /\
      contains "~/www/python/src" msg = true) /\
  (exists msg,
      InvalidWebServiceException
        "Could not find ~/uwsgi.ini. Are you sure you have a proper uwsgi config setup in ~/uwsgi.ini?" =
      InvalidWebServiceException msg /\
      contains "~/uwsgi.ini" msg = true).
Proof.
  split; [split; reflexivity|]. split.
  - apply (proj1 (check_error_names_missing_path admin_ws "uwsgi-python"
                    bare_world _)).
    reflexivity.
  - apply (proj2 (check_error_names_missing_path admin_ws "uwsgi-plain"
                    bare_world _)).
    reflexivity.
Defined.

(** C9. The [wstype] argument of either [check] has no influence: for any
    two values, of any types, outcome, message and final world agree. *)
Theorem check_ignores_wstype
    {W1 W2} (self : WebService) (wstype1 : W1) (wstype2 : W2) (w : World) :
  PythonWebService.check self wstype1 w = PythonWebService.check self wstype2 w /\
  UwsgiWebService.check self wstype1 w = UwsgiWebService.check self wstype2 w.
Proof. now rewrite !python_check_eq, !uwsgi_check_eq. Qed.

(** ** The [run] methods *)

(** C5. Once the base-class [run] has returned, [UwsgiWebService.run]
    asks for one child whose command line is the twelve arguments below,
    in this order; they mention only the port and the tool's home
    directory, so two services with the same home get the same command
    line on the same port, whatever the rest of the world looks like. *)
Theorem uwsgi_run_command
    (base : WebService -> Z -> M unit) (self : WebService) (port : Z)
    (w w1 : World) :
  base self port w = (Ok tt, w1) ->
  exists c,
    launches (UwsgiWebService.run base self port) w w1 c /\
    args c =
      [ "/usr/bin/uwsgi";
        "--http-socket"; (":" ++ str port)%string;
        "--logto"; (home (tool self) ++ "/uwsgi.log")%string;
        "--ini"; (home (tool self) ++ "/uwsgi.ini")%string;
        "--workers"; "4";
        "--die-on-term"; "--strict"; "--master" ] /\
    forall base' self' w' w1',
      home (tool self') = home (tool self) ->
      base' self' port w' = (Ok tt, w1') ->
      exists c',
        launches (UwsgiWebService.run base' self' port) w' w1' c' /\
        args c' = args c.
Proof.
  intros H. eexists. split; [exact (uwsgi_run_launches _ _ _ _ _ H)|].
  split; [reflexivity|].
  intros base' self' w' w1' Hhome H'.
  eexists. split; [exact (uwsgi_run_launches _ _ _ _ _ H')|].
  cbn [args with_own_stdio]. unfold get_homedir_subpath.
  now rewrite Hhome.
Qed.

Lemma uwsgi_run_command_witness :
  base_run_returns admin_ws 8000 bare_world = (Ok tt, bare_world) /\
  exists c,
    launches (UwsgiWebService.run base_run_returns admin_ws 8000)
      bare_world bare_world c /\
    args c =
      [ "/usr/bin/uwsgi";
        "--http-socket"; ":8000";
        "--logto"; "/data/project/admin/uwsgi.log";
        "--ini"; "/data/project/admin/uwsgi.ini";
        "--workers"; "4";
        "--die-on-term"; "--strict"; "--master" ].
Proof.
  split; [reflexivity|].
  destruct (uwsgi_run_command base_run_returns admin_ws 8000
              bare_world bare_world eq_refl) as (c & Hc & Hargs & _).
  exists c. split; [exact Hc | exact Hargs].
Defined.

(** C6. Once the base-class [run] has returned, the command line of
    [PythonWebService.run] is the fixed flags, then the pair
    [--venv <home>/www/python/venv] if that path exists, then the pair
    [--ini <home>/www/python/uwsgi.ini] if that path exists; and the venv
    pair occurs in it if and only if the venv path exists. *)
Theorem python_run_venv_flag
    (base : WebService -> Z -> M unit) (self : WebService) (port : Z)
    (w w1 : World) :
  base self port w = (Ok tt, w1) ->
  let venv := get_homedir_subpath (tool self) "www/python/venv" in
  let ini := get_homedir_subpath (tool self) "www/python/uwsgi.ini" in
  exists c,
    launches (PythonWebService.run base self port) w w1 c /\
    args c =
      fixed_flags self port
      ++ (if path_exists w1 venv then ["--venv"; venv] else [])
      ++ (if path_exists w1 ini then ["--ini"; ini] else []) /\
    (has_pair "--venv" venv (args c) = true <-> path_exists w1 venv = true).
Proof.
  intros H venv ini. eexists.
  split; [exact (python_run_launches _ _ _ _ _ H)|].
  split; [reflexivity|].
  cbn [args with_own_stdio]. subst venv.
  fold (venv_path self). now rewrite python_command_venv_pair.
Qed.

Lemma python_run_venv_flag_witness :
  base_run_returns admin_ws 8000 full_world = (Ok tt, full_world) /\
  exists c,
    launches (PythonWebService.run base_run_returns admin_ws 8000)
      full_world full_world c /\
    args c =
      fixed_flags admin_ws 8000
      ++ ["--venv"; "/data/project/admin/www/python/venv"]
      ++ ["--ini"; "/data/project/admin/www/python/uwsgi.ini"] /\
    (has_pair "--venv" "/data/project/admin/www/python/venv" (args c) = true
     <-> true = true).
Proof.
  split; [reflexivity|].
  exact (python_run_venv_flag base_run_returns admin_ws 8000
           full_world full_world eq_refl).
Defined.

(** C1, as stated, fails for [UwsgiWebService.run]: with no
    [/data/project/admin/uwsgi.ini] on disk the command line still carries
    the pair [--ini /data/project/admin/uwsgi.ini]. *)
Lemma uwsgi_run_ini_flag_not_iff_exists :
  ~ (forall c,
        launches (UwsgiWebService.run base_run_returns admin_ws 8000)
          bare_world bare_world c ->
        (has_pair "--ini" (get_homedir_subpath admin_tool "uwsgi.ini")
           (args c) = true
         <-> path_exists bare_world
               (get_homedir_subpath admin_tool "uwsgi.ini") = true)).
Proof.
  intros H.
  specialize (H _ (uwsgi_run_launches base_run_returns admin_ws 8000
                     bare_world bare_world eq_refl)).
  destruct H as [H _]. specialize (H eq_refl). discriminate H.
Qed.

(** C1, amended. Once the base-class [run] has returned,
    [PythonWebService.run] puts the pair
    [--ini <home>/www/python/uwsgi.ini] on the command line if and only if
    that file exists, whereas [UwsgiWebService.run] always puts the pair
    [--ini <home>/uwsgi.ini] there, whether or not the file exists. *)
Theorem run_ini_flag
    (base : WebService -> Z -> M unit) (self : WebService) (port : Z)
    (w w1 : World) :
  base self port w = (Ok tt, w1) ->
  (exists c,
      launches (PythonWebService.run base self port) w w1 c /\
      (has_pair "--ini"
         (get_homedir_subpath (tool self) "www/python/uwsgi.ini")
         (args c) = true
       <-> path_exists w1
             (get_homedir_subpath (tool self) "www/python/uwsgi.ini")
           = true)) /\
  (exists c,
      launches (UwsgiWebService.run base self port) w w1 c /\
      has_pair "--ini" (get_homedir_subpath (tool self) "uwsgi.ini")
        (args c) = true).
Proof.
  intros H. split.
  - eexists. split; [exact (python_run_launches _ _ _ _ _ H)|].
    cbn [args with_own_stdio]. fold (ini_path self).
    now rewrite python_command_ini_pair.
  - eexists. split; [exact (uwsgi_run_launches _ _ _ _ _ H)|].
    cbn [args with_own_stdio].
    apply (has_pair_intro _ _
             [ "/usr/bin/uwsgi"; "--http-socket"; (":" ++ str port)%string;
               "--logto"; get_homedir_subpath (tool self) "uwsgi.log" ]).
Qed.

Lemma run_ini_flag_witness :
  base_run_returns admin_ws 8000 bare_world = (Ok tt, bare_world) /\
  (exists c,
      launches (PythonWebService.run base_run_returns admin_ws 8000)
        bare_world bare_world c /\
      (has_pair "--ini" "/data/project/admin/www/python/uwsgi.ini"
         (args c) = true
       <-> false = true)) /\
  (exists c,
      launches (UwsgiWebService.run base_run_returns admin_ws 8000)
        bare_world bare_world c /\
      has_pair "--ini" "/data/project/admin/uwsgi.ini" (args c) = true).
Proof.
  split; [reflexivity|].
  exact (run_ini_flag base_run_returns admin_ws 8000
           bare_world bare_world eq_refl).
Defined.

(** C2, as stated, fails: with a base-class [run] that simply returns and
    neither [/data/project/admin/www/python/src] nor
    [/data/project/admin/uwsgi.ini] on disk, both [run] methods return
    without raising and have started uwsgi. *)
Lemma run_launches_without_required_path :
  path_exists bare_world (get_homedir_subpath admin_tool "www/python/src")
    = false /\
  path_exists bare_world (get_homedir_subpath admin_tool "uwsgi.ini")
    = false /\
  ~ raises_before_launch
      (PythonWebService.run base_run_returns admin_ws 8000) bare_world /\
  ~ raises_before_launch
      (UwsgiWebService.run base_run_returns admin_ws 8000) bare_world.
Proof.
  split; [reflexivity|]. split; [reflexivity|].
  split; intros [[msg H] _]; vm_compute in H; discriminate H.
Qed.

(** C2, amended. When the required path is missing
    ([<home>/www/python/src] for [PythonWebService], [<home>/uwsgi.ini]
    for [UwsgiWebService]), [check] raises the descriptive
    [InvalidWebServiceException] without starting anything, so that in
    the sequence [check(wstype); run(port)] the exception is raised and
    the launch in [run] is never reached.  [run] on its own does not look
    at the required path: whenever the base-class [run] returns, it
    starts the server. *)
Theorem check_then_run_stops_before_launch
    {W} (base : WebService -> Z -> M unit) (self : WebService)
    (wstype : W) (port : Z) (w w1 : World) :
  (path_exists w (get_homedir_subpath (tool self) "www/python/src") = false ->
   raises_before_launch (PythonWebService.check self wstype) w /\
   raises_before_launch
     (PythonWebService.check self wstype ;;
      PythonWebService.run base self port) w) /\
  (path_exists w (get_homedir_subpath (tool self) "uwsgi.ini") = false ->
   raises_before_launch (UwsgiWebService.check self wstype) w /\
   raises_before_launch
     (UwsgiWebService.check self wstype ;;
      UwsgiWebService.run base self port) w) /\
  (base self port w = (Ok tt, w1) ->
   (exists c, launches (PythonWebService.run base self port) w w1 c) /\
   (exists c, launches (UwsgiWebService.run base self port) w w1 c)).
Proof.
  split; [|split].
  - intros Hmiss.
    pose proof (python_check_eq self wstype w) as E. rewrite Hmiss in E.
    unfold raises_before_launch.
    rewrite (bind_raised _ _ _ _ _ E), E. cbn [fst snd].
    repeat split; eauto.
  - intros Hmiss.
    pose proof (uwsgi_check_eq self wstype w) as E. rewrite Hmiss in E.
    unfold raises_before_launch.
    rewrite (bind_raised _ _ _ _ _ E), E. cbn [fst snd].
    repeat split; eauto.
  - intros H. split; eexists.
    + exact (python_run_launches _ _ _ _ _ H).
    + exact (uwsgi_run_launches _ _ _ _ _ H).
Qed.

Lemma check_then_run_stops_before_launch_witness :
  (path_exists bare_world "/data/project/admin/www/python/src" = false /\
   path_exists bare_world "/data/project/admin/uwsgi.ini" = false /\
   base_run_returns admin_ws 8000 bare_world = (Ok tt, bare_world)) /\
  raises_before_launch
    (PythonWebService.check admin_ws "uwsgi-python" ;;
     PythonWebService.run base_run_returns admin_ws 8000) bare_world /\
  raises_before_launch
    (UwsgiWebService.check admin_ws "uwsgi-python" ;;
     UwsgiWebService.run base_run_returns admin_ws 8000) bare_world /\
  (exists c,
      launches (PythonWebService.run base_run_returns admin_ws 8000)
        bare_world bare_world c) /\
  (exists c,
      launches (UwsgiWebService.run base_run_returns admin_ws 8000)
        bare_world bare_world c).
Proof.
  split; [repeat split|].
  destruct (check_then_run_stops_before_launch base_run_returns admin_ws
              "uwsgi-python" 8000 bare_world bare_world)
    as (Hpy & Huw & Hrun).
  split; [exact (proj2 (Hpy eq_refl))|].
  split; [exact (proj2 (Huw eq_refl))|].
  exact (Hrun eq_refl).
Defined.

(** C8. Whenever a [run] reaches its launch step, the child it asks for
    is [/usr/bin/uwsgi] with [sys.stdin], [sys.stdout] and [sys.stderr]
    of the launching process as its three standard streams: none is a
    pipe, [DEVNULL], or left to another file. *)
Theorem run_forwards_standard_streams
    (base : WebService -> Z -> M unit) (self : WebService) (port : Z)
    (w w1 : World) :
  base self port w = (Ok tt, w1) ->
  (exists c,
      launches (PythonWebService.run base self port) w w1 c /\
      hd_error (args c) = Some "/usr/bin/uwsgi" /\
      stdin c = File sys_stdin /\
      stdout c = File sys_stdout /\
      stderr c = File sys_stderr /\
      own_stdio c = true) /\
  (exists c,
      launches (UwsgiWebService.run base self port) w w1 c /\
      hd_error (args c) = Some "/usr/bin/uwsgi" /\
      stdin c = File sys_stdin /\
      stdout c = File sys_stdout /\
      stderr c = File sys_stderr /\
      own_stdio c = true).
Proof.
  intros H. split; eexists.
  - split; [exact (python_run_launches _ _ _ _ _ H)|]. repeat split.
  - split; [exact (uwsgi_run_launches _ _ _ _ _ H)|]. repeat split.
Qed.

Lemma run_forwards_standard_streams_witness :
  base_run_returns admin_ws 8000 full_world = (Ok tt, full_world) /\
  (exists c,
      launches (PythonWebService.run base_run_returns admin_ws 8000)
        full_world full_world c /\
      hd_error (args c) = Some "/usr/bin/uwsgi" /\
      stdin c = File sys_stdin /\
      stdout c = File sys_stdout /\
      stderr c = File sys_stderr /\
      own_stdio c = true) /\
  (exists c,
      launches (UwsgiWebService.run base_run_returns admin_ws 8000)
        full_world full_world c /\
      hd_error (args c) = Some "/usr/bin/uwsgi" /\
      stdin c = File sys_stdin /\
      stdout c = File sys_stdout /\
      stderr c = File sys_stderr /\
      own_stdio c = true).
Proof.
  split; [reflexivity|].
  exact (run_forwards_standard_streams base_run_returns admin_ws 8000
           full_world full_world eq_refl).
Defined.

(** C10. For every integer [port], with no test on its range, the command
    line of either [run] has ["--http-socket"] directly followed by
    [":"] and the decimal rendering [str port]. *)
Theorem run_passes_port_through
    (base : WebService -> Z -> M unit) (self : WebService) (port : Z)
    (w w1 : World) :
  base self port w = (Ok tt, w1) ->
  (exists c,
      launches (PythonWebService.run base self port) w w1 c /\
      has_pair "--http-socket" (":" ++ str port)%string (args c) = true) /\
  (exists c,
      launches (UwsgiWebService.run base self port) w w1 c /\
      has_pair "--http-socket" (":" ++ str port)%string (args c) = true).
Proof.
  intros H. split; eexists.
  - split; [exact (python_run_launches _ _ _ _ _ H)|].
    cbn [args with_own_stdio]. apply has_pair_app_l. unfold fixed_flags.
    apply (has_pair_intro _ _
             [ "/usr/bin/uwsgi"; "--plugin"; "python,python3" ]).
  - split; [exact (uwsgi_run_launches _ _ _ _ _ H)|].
    cbn [args with_own_stdio].
    apply (has_pair_intro _ _ [ "/usr/bin/uwsgi" ]).
Qed.

Lemma run_passes_port_through_witness :
  base_run_returns admin_ws (-1) bare_world = (Ok tt, bare_world) /\
  (exists c,
      launches (PythonWebService.run base_run_returns admin_ws (-1))
        bare_world bare_world c /\
      has_pair "--http-socket" ":-1" (args c) = true) /\
  (exists c,
      launches (UwsgiWebService.run base_run_returns admin_ws (-1))
        bare_world bare_world c /\
      has_pair "--http-socket" ":-1" (args c) = true).
Proof.
  split; [reflexivity|].
  exact (run_passes_port_through base_run_returns admin_ws (-1)
           bare_world bare_world eq_refl).
Defined.

(** ** Concrete runs *)

Example str_examples :
  str 0 = "0" /\ str 8000 = "8000" /\ str (-1) = "-1" /\
  str 70000 = "70000".
Proof. repeat split. Qed.

Example python_run_full_world :
  PythonWebService.run base_run_returns admin_ws 8000 full_world =
  (Ok tt,
   mkWorld (path_exists full_world) (child_status full_world)
     [ with_own_stdio
         [ "/usr/bin/uwsgi"; "--plugin"; "python,python3";
           "--http-socket"; ":8000";
           "--chdir"; "/data/project/admin/www/python/src";
           "--logto"; "/data/project/admin/uwsgi.log";
           "--callable"; "app"; "--manage-script-name";
           "--workers"; "4";
           "--mount"; "/admin=/data/project/admin/www/python/src/app.py";
           "--die-on-term"; "--strict"; "--master";
           "--venv"; "/data/project/admin/www/python/venv";
           "--ini"; "/data/project/admin/www/python/uwsgi.ini" ] ]).
Proof. reflexivity. Qed.

Example uwsgi_run_bare_world :
  UwsgiWebService.run base_run_returns admin_ws 8000 bare_world =
  (Ok tt,
   mkWorld (path_exists bare_world) (child_status bare_world)
     [ with_own_stdio
         [ "/usr/bin/uwsgi"; "--http-socket"; ":8000";
           "--logto"; "/data/project/admin/uwsgi.log";
           "--ini"; "/data/project/admin/uwsgi.ini";
           "--workers"; "4"; "--die-on-term"; "--strict"; "--master" ] ]).
Proof. reflexivity. Qed.

Example uwsgi_run_failing_child :
  fst (UwsgiWebService.run base_run_returns admin_ws 8000
         (mkWorld (fun _ => true) (fun _ => Some 1%Z) [])) =
  Raised (CalledProcessError 1
            [ "/usr/bin/uwsgi"; "--http-socket"; ":8000";
              "--logto"; "/data/project/admin/uwsgi.log";
              "--ini"; "/data/project/admin/uwsgi.ini";
              "--workers"; "4"; "--die-on-term"; "--strict"; "--master" ]).
Proof. reflexivity. Qed.

Example check_examples :
  PythonWebService.check admin_ws "uwsgi-python" full_world
    = (Ok tt, full_world) /\
  UwsgiWebService.check admin_ws "uwsgi-plain" full_world
    = (Ok tt, full_world) /\
  (exists msg,
      PythonWebService.check admin_ws "uwsgi-python" bare_world
      = (Raised (InvalidWebServiceException msg), bare_world)).
Proof. repeat split. eexists. reflexivity. Qed.

(** ** Further properties of [run] *)

Lemma check_call_then_eq c w :
  (check_call c ;; ret tt) w =
  (outcome_of_child (child_status w c) (args c),
   mkWorld (path_exists w) (child_status w) (popen_log w ++ [c])).
Proof.
  unfold bind, check_call, outcome_of_child.
  destruct (child_status w c) as [rc|]; [destruct (rc =? 0)%Z|]; reflexivity.
Qed.

(** The complete result of a [run] once the base-class [run] has
    returned. *)
Lemma python_run_eq base self port w w1 :
  base self port w = (Ok tt, w1) ->
  let c := with_own_stdio
             (fixed_flags self port ++ venv_flags self w1 ++ ini_flags self w1) in
  PythonWebService.run base self port w =
  (outcome_of_child (child_status w1 c) (args c),
   mkWorld (path_exists w1) (child_status w1) (popen_log w1 ++ [c])).
Proof.
  intros H c. unfold PythonWebService.run.
  rewrite (bind_ok _ _ _ _ _ H). cbv zeta.
  rewrite !bind_os_path_exists, check_call_then_eq.
  subst c. unfold venv_flags, ini_flags, with_own_stdio, venv_path, ini_path.
  destruct (path_exists w1 (get_homedir_subpath (tool self) "www/python/venv")),
           (path_exists w1 (get_homedir_subpath (tool self) "www/python/uwsgi.ini"));
    reflexivity.
Qed.

Lemma uwsgi_run_eq base self port w w1 :
  base self port w = (Ok tt, w1) ->
  let c := with_own_stdio
             [ "/usr/bin/uwsgi"; "--http-socket"; (":" ++ str port)%string;
               "--logto"; get_homedir_subpath (tool self) "uwsgi.log";
               "--ini"; get_homedir_subpath (tool self) "uwsgi.ini";
               "--workers"; "4"; "--die-on-term"; "--strict"; "--master" ] in
  UwsgiWebService.run base self port w =
  (outcome_of_child (child_status w1 c) (args c),
   mkWorld (path_exists w1) (child_status w1) (popen_log w1 ++ [c])).
Proof.
  intros H c. unfold UwsgiWebService.run.
  rewrite (bind_ok _ _ _ _ _ H). cbv zeta.
  now rewrite check_call_then_eq.
Qed.

(** The child that a [run] launches is determined by the log. *)
Lemma launches_inj m w w1 c c' :
  launches m w w1 c -> launches m w w1 c' -> c = c'.
Proof.
  unfold launches. intros H H'. rewrite H in H'.
  apply app_inj_tail in H'. now destruct H'.
Qed.

Lemma to_int_proper z : Z.to_int z <> Decimal.Pos Decimal.Nil /\
                        Z.to_int z <> Decimal.Neg Decimal.Nil.
Proof.
  destruct z as [|p|p]; cbn; split; try discriminate;
    intros [= H]; exact (Unsigned.to_uint_nonnil p H).
Qed.

(** [str] can be read back: parsing the digits gives the integer again. *)
Lemma str_parses_back z :
  option_map Z.of_int (NilZero.int_of_string (str z)) = Some z.
Proof.
  unfold str. destruct (to_int_proper z) as [Hp Hn].
  rewrite (NilZero.isi _ Hp Hn). cbn [option_map]. now rewrite DecimalZ.of_to.
Qed.

Lemma str_inj z z' : str z = str z' -> z = z'.
Proof.
  intros H. apply (f_equal (fun s => option_map Z.of_int (NilZero.int_of_string s))) in H.
  rewrite !str_parses_back in H. now injection H.
Qed.

Lemma outcome_of_child_cases status command :
  (outcome_of_child status command = Ok tt <-> status = Some 0%Z) /\
  (forall rc, status = Some rc -> rc <> 0%Z ->
     outcome_of_child status command =
     Raised (CalledProcessError rc command)) /\
  (status = None -> outcome_of_child status command = Raised OSError) /\
  (forall msg,
     outcome_of_child status command <>
     Raised (InvalidWebServiceException msg)).
Proof.
  unfold outcome_of_child. destruct status as [rc|].
  - destruct (Z.eqb_spec rc 0) as [->|Hne].
    + repeat split; try easy. intros rc [= <-] Hrc. now elim Hrc.
    + repeat split; try easy.
      * intros [= E]. now elim Hne.
      * now intros rc' [= <-] _.
  - repeat split; easy.
Qed.



(** X2. Once the base-class [run] has returned, [PythonWebService.run]
    returns [None] exactly when uwsgi exits with status 0; any other exit
    status [rc] surfaces as [CalledProcessError rc] carrying the full
    command line, a child that cannot be started as [OSError]; and in no
    case does [run] raise [InvalidWebServiceException]. *)
Theorem python_run_outcome
    (base : WebService -> Z -> M unit) (self : WebService) (port : Z)
    (w w1 : World) :
  base self port w = (Ok tt, w1) ->
  exists c,
    launches (PythonWebService.run base self port) w w1 c /\
    (fst (PythonWebService.run base self port w) = Ok tt
     <-> child_status w1 c = Some 0%Z) /\
    (forall rc, child_status w1 c = Some rc -> rc <> 0%Z ->
       fst (PythonWebService.run base self port w) =
       Raised (CalledProcessError rc (args c))) /\
    (child_status w1 c = None ->
       fst (PythonWebService.run base self port w) = Raised OSError) /\
    (forall msg,
       fst (PythonWebService.run base self port w) <>
       Raised (InvalidWebServiceException msg)).
Proof.
  intros H. eexists. split; [exact (python_run_launches _ _ _ _ _ H)|].
  rewrite (python_run_eq _ _ _ _ _ H). cbv zeta. cbn [fst].
  apply outcome_of_child_cases.
Qed.

Lemma python_run_outcome_witness :
  base_run_returns admin_ws 8000 (world_exiting 3)
    = (Ok tt, world_exiting 3) /\
  exists c,
    launches (PythonWebService.run base_run_returns admin_ws 8000)
      (world_exiting 3) (world_exiting 3) c /\
    fst (PythonWebService.run base_run_returns admin_ws 8000 (world_exiting 3))
      = Raised (CalledProcessError 3 (args c)).
Proof.
  split; [reflexivity|].
  destruct (python_run_outcome base_run_returns admin_ws 8000
              (world_exiting 3) (world_exiting 3) eq_refl)
    as (c & Hc & _ & Hrc & _).
  exists c. split; [exact Hc|].
  apply Hrc; [reflexivity | discriminate].
Defined.

(** X3. Once the base-class [run] has returned, [UwsgiWebService.run]
    returns [None] exactly when uwsgi exits with status 0; any other exit
    status [rc] surfaces as [CalledProcessError rc] carrying the command
    line, a child that cannot be started as [OSError]; and in no case
    does [run] raise [InvalidWebServiceException]. *)
Theorem uwsgi_run_outcome
    (base : WebService -> Z -> M unit) (self : WebService) (port : Z)
    (w w1 : World) :
  base self port w = (Ok tt, w1) ->
  exists c,
    launches (UwsgiWebService.run base self port) w w1 c /\
    (fst (UwsgiWebService.run base self port w) = Ok tt
     <-> child_status w1 c = Some 0%Z) /\
    (forall rc, child_status w1 c = Some rc -> rc <> 0%Z ->
       fst (UwsgiWebService.run base self port w) =
       Raised (CalledProcessError rc (args c))) /\
    (child_status w1 c = None ->
       fst (UwsgiWebService.run base self port w) = Raised OSError) /\
    (forall msg,
       fst (UwsgiWebService.run base self port w) <>
       Raised (InvalidWebServiceException msg)).
Proof.
  intros H. eexists. split; [exact (uwsgi_run_launches _ _ _ _ _ H)|].
  rewrite (uwsgi_run_eq _ _ _ _ _ H). cbv zeta. cbn [fst].
  apply outcome_of_child_cases.
Qed.

Lemma uwsgi_run_outcome_witness :
  base_run_returns admin_ws 8000 (world_exiting 3)
    = (Ok tt, world_exiting 3) /\
  exists c,
    launches (UwsgiWebService.run base_run_returns admin_ws 8000)
      (world_exiting 3) (world_exiting 3) c /\
    fst (UwsgiWebService.run base_run_returns admin_ws 8000 (world_exiting 3))
      = Raised (CalledProcessError 3 (args c)).
Proof.
  split; [reflexivity|].
  destruct (uwsgi_run_outcome base_run_returns admin_ws 8000
              (world_exiting 3) (world_exiting 3) eq_refl)
    as (c & Hc & _ & Hrc & _).
  exists c. split; [exact Hc|].
  apply Hrc; [reflexivity | discriminate].
Defined.

(** X4. [check] and [run] agree on the path: when [check] has passed and
    the base-class [run] returns, the sequence [check(wstype); run(port)]
    starts uwsgi, and the directory handed over as [--chdir]
    ([PythonWebService]) or the file handed over as [--ini]
    ([UwsgiWebService]) is exactly the one [check] found to exist. *)
Theorem check_then_run_uses_checked_path
    {W} (base : WebService -> Z -> M unit) (self : WebService)
    (wstype : W) (port : Z) (w w1 : World) :
  base self port w = (Ok tt, w1) ->
  (fst (PythonWebService.check self wstype w) = Ok tt ->
   exists c d,
     launches
       (PythonWebService.check self wstype ;;
        PythonWebService.run base self port) w w1 c /\
     has_pair "--chdir" d (args c) = true /\
     path_exists w d = true) /\
  (fst (UwsgiWebService.check self wstype w) = Ok tt ->
   exists c d,
     launches
       (UwsgiWebService.check self wstype ;;
        UwsgiWebService.run base self port) w w1 c /\
     has_pair "--ini" d (args c) = true /\
     path_exists w d = true).
Proof.
  intros H. split.
  - pose proof (python_check_eq self wstype w) as E.
    destruct (path_exists w _) eqn:Hex; rewrite E; cbn [fst];
      [intros _ | discriminate].
    do 2 eexists. split; [|split; [|exact Hex]].
    + unfold launches. rewrite (bind_ok _ _ _ _ _ E).
      exact (python_run_launches _ _ _ _ _ H).
    + cbn [args with_own_stdio]. apply has_pair_app_l. unfold fixed_flags.
      apply (has_pair_intro _ _
               [ "/usr/bin/uwsgi"; "--plugin"; "python,python3";
                 "--http-socket"; (":" ++ str port)%string ]).
  - pose proof (uwsgi_check_eq self wstype w) as E.
    destruct (path_exists w _) eqn:Hex; rewrite E; cbn [fst];
      [intros _ | discriminate].
    do 2 eexists. split; [|split; [|exact Hex]].
    + unfold launches. rewrite (bind_ok _ _ _ _ _ E).
      exact (uwsgi_run_launches _ _ _ _ _ H).
    + cbn [args with_own_stdio].
      apply (has_pair_intro _ _
               [ "/usr/bin/uwsgi"; "--http-socket"; (":" ++ str port)%string;
                 "--logto"; get_homedir_subpath (tool self) "uwsgi.log" ]).
Qed.

Lemma check_then_run_uses_checked_path_witness :
  (base_run_returns admin_ws 8000 full_world = (Ok tt, full_world) /\
   fst (PythonWebService.check admin_ws "uwsgi-python" full_world) = Ok tt /\
   fst (UwsgiWebService.check admin_ws "uwsgi-python" full_world) = Ok tt) /\
  (exists c d,
      launches
        (PythonWebService.check admin_ws "uwsgi-python" ;;
         PythonWebService.run base_run_returns admin_ws 8000)
        full_world full_world c /\
      has_pair "--chdir" d (args c) = true /\
      path_exists full_world d = true) /\
  (exists c d,
      launches
        (UwsgiWebService.check admin_ws "uwsgi-python" ;;
         UwsgiWebService.run base_run_returns admin_ws 8000)
        full_world full_world c /\
      has_pair "--ini" d (args c) = true /\
      path_exists full_world d = true).
Proof.
  split; [repeat split|].
  destruct (check_then_run_uses_checked_path base_run_returns admin_ws
              "uwsgi-python" 8000 full_world full_world eq_refl)
    as [Hpy Huw].
  split; [exact (Hpy eq_refl) | exact (Huw eq_refl)].
Defined.

(** X5. Different ports never give the same command line: for either
    class, whatever the tools and the worlds, two runs on ports
    [port <> port'] launch children whose argument lists differ. *)
Theorem distinct_ports_distinct_commands
    (base base' : WebService -> Z -> M unit) (self self' : WebService)
    (port port' : Z) (w w1 w' w1' : World) :
  port <> port' ->
  base self port w = (Ok tt, w1) ->
  base' self' port' w' = (Ok tt, w1') ->
  (exists c c',
      launches (PythonWebService.run base self port) w w1 c /\
      launches (PythonWebService.run base' self' port') w' w1' c' /\
      args c <> args c') /\
  (exists c c',
      launches (UwsgiWebService.run base self port) w w1 c /\
      launches (UwsgiWebService.run base' self' port') w' w1' c' /\
      args c <> args c').
Proof.
  intros Hne H H'. split; do 2 eexists.
  - split; [exact (python_run_launches _ _ _ _ _ H)|].
    split; [exact (python_run_launches _ _ _ _ _ H')|].
    cbn [args with_own_stdio]. intros E.
    apply (f_equal (fun l => nth_error l 4)) in E.
    unfold fixed_flags in E. cbn [nth_error app] in E.
    injection E as E. now apply str_inj in E.
  - split; [exact (uwsgi_run_launches _ _ _ _ _ H)|].
    split; [exact (uwsgi_run_launches _ _ _ _ _ H')|].
    cbn [args with_own_stdio]. intros E.
    apply (f_equal (fun l => nth_error l 2)) in E.
    cbn [nth_error] in E.
    injection E as E. now apply str_inj in E.
Qed.

Lemma distinct_ports_distinct_commands_witness :
  ((8000 <> 8001)%Z /\
   base_run_returns admin_ws 8000 full_world = (Ok tt, full_world) /\
   base_run_returns admin_ws 8001 full_world = (Ok tt, full_world)) /\
  (exists c c',
      launches (PythonWebService.run base_run_returns admin_ws 8000)
        full_world full_world c /\
      launches (PythonWebService.run base_run_returns admin_ws 8001)
        full_world full_world c' /\
      args c <> args c') /\
  (exists c c',
      launches (UwsgiWebService.run base_run_returns admin_ws 8000)
        full_world full_world c /\
      launches (UwsgiWebService.run base_run_returns admin_ws 8001)
        full_world full_world c' /\
      args c <> args c').
Proof.
  split; [split; [discriminate | split; reflexivity]|].
  apply (distinct_ports_distinct_commands base_run_returns base_run_returns
           admin_ws admin_ws 8000 8001 full_world full_world
           full_world full_world);
    [discriminate | reflexivity | reflexivity].
Defined.

Lemma append_assoc (s1 s2 s3 : string) :
  ((s1 ++ s2) ++ s3)%string = (s1 ++ s2 ++ s3)%string.
Proof. induction s1 as [|c s1 IH]; cbn; [reflexivity | now rewrite IH]. Qed.

(** X6. In the command line of [PythonWebService.run] the words
    ["--venv"] and ["--ini"] occur at all, at any position, only when the
    venv directory, respectively the ini file, exists (no tool name, home
    directory or port can smuggle them in), and the command line has 19
    arguments plus two for each of the two paths that exists. *)
Theorem python_optional_flags_only_when_present
    (base : WebService -> Z -> M unit) (self : WebService) (port : Z)
    (w w1 : World) :
  base self port w = (Ok tt, w1) ->
  let venv := get_homedir_subpath (tool self) "www/python/venv" in
  let ini := get_homedir_subpath (tool self) "www/python/uwsgi.ini" in
  exists c,
    launches (PythonWebService.run base self port) w w1 c /\
    (In "--venv" (args c) <-> path_exists w1 venv = true) /\
    (In "--ini" (args c) <-> path_exists w1 ini = true) /\
    length (args c) =
      19 + (if path_exists w1 venv then 2 else 0)
         + (if path_exists w1 ini then 2 else 0).
Proof.
  intros H venv ini. eexists.
  split; [exact (python_run_launches _ _ _ _ _ H)|].
  cbn [args with_own_stdio]. subst venv ini.
  fold (venv_path self) (ini_path self).
  split; [|split].
  - split.
    + intros Hin. apply in_app_or in Hin. destruct Hin as [Hin|Hin];
        [elim (venv_flag_not_fixed _ _ Hin)|].
      apply in_app_or in Hin. destruct Hin as [Hin|Hin];
        [|elim (venv_flag_not_in_ini_flags _ _ Hin)].
      unfold venv_flags in Hin.
      destruct (path_exists w1 (venv_path self)); [reflexivity | elim Hin].
    + intros Hex. apply in_or_app. right. apply in_or_app. left.
      unfold venv_flags. rewrite Hex. now left.
  - split.
    + intros Hin. apply in_app_or in Hin. destruct Hin as [Hin|Hin];
        [elim (ini_flag_not_fixed _ _ Hin)|].
      apply in_app_or in Hin. destruct Hin as [Hin|Hin];
        [elim (ini_flag_not_in_venv_flags _ _ Hin)|].
      unfold ini_flags in Hin.
      destruct (path_exists w1 (ini_path self)); [reflexivity | elim Hin].
    + intros Hex. apply in_or_app. right. apply in_or_app. right.
      unfold ini_flags. rewrite Hex. now left.
  - unfold venv_flags, ini_flags.
    destruct (path_exists w1 (venv_path self)),
             (path_exists w1 (ini_path self)); reflexivity.
Qed.

Lemma python_optional_flags_only_when_present_witness :
  base_run_returns admin_ws 8000 full_world = (Ok tt, full_world) /\
  exists c,
    launches (PythonWebService.run base_run_returns admin_ws 8000)
      full_world full_world c /\
    (In "--venv" (args c) <-> true = true) /\
    (In "--ini" (args c) <-> true = true) /\
    length (args c) = 19 + 2 + 2.
Proof.
  split; [reflexivity|].
  exact (python_optional_flags_only_when_present base_run_returns admin_ws
           8000 full_world full_world eq_refl).
Defined.

(** X7. [PythonWebService.run] serves the file [app.py] that lies in the
    very directory it passes as [--chdir], mounts it under the URL prefix
    [/<tool name>], and names [app] as the WSGI callable. *)
Theorem python_run_mounts_app_in_chdir
    (base : WebService -> Z -> M unit) (self : WebService) (port : Z)
    (w w1 : World) :
  base self port w = (Ok tt, w1) ->
  exists c d,
    launches (PythonWebService.run base self port) w w1 c /\
    has_pair "--chdir" d (args c) = true /\
    has_pair "--mount"
      ("/" ++ name (tool self) ++ "=" ++ d ++ "/app.py")%string
      (args c) = true /\
    has_pair "--callable" "app" (args c) = true.
Proof.
  intros H. exists (with_own_stdio
    (fixed_flags self port ++ venv_flags self w1 ++ ini_flags self w1)),
    (get_homedir_subpath (tool self) "www/python/src").
  split; [exact (python_run_launches _ _ _ _ _ H)|].
  cbn [args with_own_stdio]. split; [|split]; apply has_pair_app_l.
  - apply (has_pair_intro _ _
             [ "/usr/bin/uwsgi"; "--plugin"; "python,python3";
               "--http-socket"; (":" ++ str port)%string ]).
  - replace (get_homedir_subpath (tool self) "www/python/src" ++ "/app.py")%string
      with (get_homedir_subpath (tool self) "www/python/src/app.py")
      by (unfold get_homedir_subpath; now rewrite append_assoc).
    apply (has_pair_intro _ _
             [ "/usr/bin/uwsgi"; "--plugin"; "python,python3";
               "--http-socket"; (":" ++ str port)%string;
               "--chdir"; get_homedir_subpath (tool self) "www/python/src";
               "--logto"; get_homedir_subpath (tool self) "uwsgi.log";
               "--callable"; "app"; "--manage-script-name";
               "--workers"; "4" ]).
  - apply (has_pair_intro _ _
             [ "/usr/bin/uwsgi"; "--plugin"; "python,python3";
               "--http-socket"; (":" ++ str port)%string;
               "--chdir"; get_homedir_subpath (tool self) "www/python/src";
               "--logto"; get_homedir_subpath (tool self) "uwsgi.log" ]).
Qed.

Lemma python_run_mounts_app_in_chdir_witness :
  base_run_returns admin_ws 8000 bare_world = (Ok tt, bare_world) /\
  exists c d,
    launches (PythonWebService.run base_run_returns admin_ws 8000)
      bare_world bare_world c /\
    has_pair "--chdir" d (args c) = true /\
    has_pair "--mount" ("/admin=" ++ d ++ "/app.py")%string (args c) = true /\
    has_pair "--callable" "app" (args c) = true.
Proof.
  split; [reflexivity|].
  exact (python_run_mounts_app_in_chdir base_run_returns admin_ws 8000
           bare_world bare_world eq_refl).
Defined.

(** X8. Both classes send the server log to the same file,
    [<home>/uwsgi.log], ask for four workers, and pass [--die-on-term],
    [--strict] and [--master] side by side; in [UwsgiWebService.run]
    these three close the command line. *)
Theorem run_common_options
    (base : WebService -> Z -> M unit) (self : WebService) (port : Z)
    (w w1 : World) :
  base self port w = (Ok tt, w1) ->
  let log := (home (tool self) ++ "/uwsgi.log")%string in
  exists c c',
    launches (PythonWebService.run base self port) w w1 c /\
    launches (UwsgiWebService.run base self port) w w1 c' /\
    has_pair "--logto" log (args c) = true /\
    has_pair "--logto" log (args c') = true /\
    has_pair "--workers" "4" (args c) = true /\
    has_pair "--workers" "4" (args c') = true /\
    (exists pre post,
        args c = pre ++ ["--die-on-term"; "--strict"; "--master"] ++ post) /\
    (exists pre,
        args c' = pre ++ ["--die-on-term"; "--strict"; "--master"]).
Proof.
  intros H log. do 2 eexists.
  split; [exact (python_run_launches _ _ _ _ _ H)|].
  split; [exact (uwsgi_run_launches _ _ _ _ _ H)|].
  cbn [args with_own_stdio]. subst log.
  change (home (tool self) ++ "/uwsgi.log")%string
    with (get_homedir_subpath (tool self) "uwsgi.log").
  repeat split.
  - apply has_pair_app_l.
    apply (has_pair_intro _ _
             [ "/usr/bin/uwsgi"; "--plugin"; "python,python3";
               "--http-socket"; (":" ++ str port)%string;
               "--chdir"; get_homedir_subpath (tool self) "www/python/src" ]).
  - apply (has_pair_intro _ _
             [ "/usr/bin/uwsgi"; "--http-socket"; (":" ++ str port)%string ]).
  - apply has_pair_app_l.
    apply (has_pair_intro _ _
             [ "/usr/bin/uwsgi"; "--plugin"; "python,python3";
               "--http-socket"; (":" ++ str port)%string;
               "--chdir"; get_homedir_subpath (tool self) "www/python/src";
               "--logto"; get_homedir_subpath (tool self) "uwsgi.log";
               "--callable"; "app"; "--manage-script-name" ]).
  - apply (has_pair_intro _ _
             [ "/usr/bin/uwsgi"; "--http-socket"; (":" ++ str port)%string;
               "--logto"; get_homedir_subpath (tool self) "uwsgi.log";
               "--ini"; get_homedir_subpath (tool self) "uwsgi.ini" ]).
  - exists (firstn 16 (fixed_flags self port)),
           (venv_flags self w1 ++ ini_flags self w1).
    reflexivity.
  - eexists
      [ "/usr/bin/uwsgi"; "--http-socket"; (":" ++ str port)%string;
        "--logto"; get_homedir_subpath (tool self) "uwsgi.log";
        "--ini"; get_homedir_subpath (tool self) "uwsgi.ini";
        "--workers"; "4" ].
    reflexivity.
Qed.

Lemma run_common_options_witness :
  base_run_returns admin_ws 8000 full_world = (Ok tt, full_world) /\
  exists c c',
    launches (PythonWebService.run base_run_returns admin_ws 8000)
      full_world full_world c /\
    launches (UwsgiWebService.run base_run_returns admin_ws 8000)
      full_world full_world c' /\
    has_pair "--logto" "/data/project/admin/uwsgi.log" (args c) = true /\
    has_pair "--logto" "/data/project/admin/uwsgi.log" (args c') = true /\
    has_pair "--workers" "4" (args c) = true /\
    has_pair "--workers" "4" (args c') = true /\
    (exists pre post,
        args c = pre ++ ["--die-on-term"; "--strict"; "--master"] ++ post) /\
    (exists pre,
        args c' = pre ++ ["--die-on-term"; "--strict"; "--master"]).
Proof.
  split; [reflexivity|].
  exact (run_common_options base_run_returns admin_ws 8000
           full_world full_world eq_refl).
Defined.

Lemma ends_with_append (h t : string) : ends_with t (h ++ t)%string = true.
Proof.
  induction h as [|c h IH].
  - destruct t; cbn; now rewrite ?Ascii.eqb_refl, ?String.eqb_refl.
  - cbn [append ends_with]. rewrite IH. apply orb_true_r.
Qed.

Lemma subpath_ends_with t path :
  ends_with (String "/" path) (get_homedir_subpath t path) = true.
Proof. unfold get_homedir_subpath. apply ends_with_append. Qed.

(** Refute [H : x = flag] where [x] is an argument of the uwsgi command
    line and [flag] a literal: another literal, the port argument, or a
    path under the home directory, which ends differently. *)
Ltac refute_argument H :=
  first
    [ discriminate H
    | cbn [append] in H; discriminate H
    | apply (f_equal (ends_with "/uwsgi.log")) in H;
      rewrite subpath_ends_with in H; vm_compute in H; discriminate H
    | apply (f_equal (ends_with "/uwsgi.ini")) in H;
      rewrite subpath_ends_with in H; vm_compute in H; discriminate H ].

(** X9. [UwsgiWebService.run] never passes any of the options that are
    particular to the Python class ([--plugin], [--chdir], [--callable],
    [--manage-script-name], [--mount], [--venv]): whatever exists on
    disk, whatever the tool and the port, none of them occurs among its
    twelve arguments. *)
Theorem uwsgi_run_has_no_python_options
    (base : WebService -> Z -> M unit) (self : WebService) (port : Z)
    (w w1 : World) :
  base self port w = (Ok tt, w1) ->
  exists c,
    launches (UwsgiWebService.run base self port) w w1 c /\
    length (args c) = 12 /\
    forall flag, In flag python_only_flags -> ~ In flag (args c).
Proof.
  intros H. eexists.
  split; [exact (uwsgi_run_launches _ _ _ _ _ H)|].
  split; [reflexivity|].
  cbn [args with_own_stdio]. intros flag Hflag Hin.
  unfold python_only_flags in Hflag. cbn [In] in Hflag, Hin.
  repeat (destruct Hflag as [<-|Hflag];
          [ repeat (destruct Hin as [Hin|Hin]; [solve [refute_argument Hin]|]);
            exact Hin |]).
  exact Hflag.
Qed.

Lemma uwsgi_run_has_no_python_options_witness :
  base_run_returns admin_ws 8000 full_world = (Ok tt, full_world) /\
  exists c,
    launches (UwsgiWebService.run base_run_returns admin_ws 8000)
      full_world full_world c /\
    length (args c) = 12 /\
    forall flag, In flag python_only_flags -> ~ In flag (args c).
Proof.
  split; [reflexivity|].
  exact (uwsgi_run_has_no_python_options base_run_returns admin_ws 8000
           full_world full_world eq_refl).
Defined.
